(** * US POI map viewer: the data pipeline of [streamlit_app.py]

    The script is a straight line: connect, fetch, clean, derive the filter
    options, filter, render.  The pandas operations on the columns the script
    names are embedded as list functions over records; the Streamlit calls
    are embedded as a log of render commands with the three ways a run can
    end (ran to the last line, [st.stop()], uncaught exception). *)

From stdpp Require Import base option list sorting strings pretty gmap fin_maps.

Local Open Scope string_scope.
Local Open Scope list_scope.
Local Open Scope nat_scope.

(** ** Cells, records and data frames *)

(** A non-NaN double: a finite binary fraction or an infinity.  The pipeline
    never computes with coordinates, it only tests them for being missing. *)
Inductive float64 : Type :=
  | Finite (mantissa exponent : Z)
  | Inf (negative : bool).

(** What a cell of the two coordinate columns can hold when it arrives from
    the driver: nothing ([None]/[NaN], which pandas treats alike), a number,
    or text. *)
Inductive cell : Type :=
  | NaN
  | Num (x : float64)
  | Text (s : string).

Definition isna (c : cell) : bool :=
  match c with
  | NaN => true
  | _ => false
  end.

(** One row of [POI_ADDRESS_US].  [row_label] is the pandas index label the
    row received when it was fetched; it is what identifies the row through
    every later selection.  Text columns hold [None] for SQL NULL. *)
Record PoiRecord : Type := mkPoi {
  row_label : nat;
  POI_NAME : option string;
  CATEGORY_MAIN : option string;
  CITY : option string;
  STATE : option string;
  LATITUDE : cell;
  LONGITUDE : cell;
  passthrough : list (string * cell)
}.

Abbreviation DataFrame := (list PoiRecord).

(** ** Column operations *)

(** [Series.dropna()] on a text column. *)
Definition dropna (col : list (option string)) : list string := omap id col.

(** [Series.unique()]: distinct values in order of first appearance. *)
Fixpoint unique (col : list string) : list string :=
  match col with
  | [] => []
  | x :: rest => x :: filter (λ y, y ≠ x) (unique rest)
  end.

(** Python's [sorted] on [str]: ascending by code point, which on UTF-8
    bytes is the bytewise lexicographic order. *)
Definition sorted (l : list string) : list string := merge_sort String.le l.

(** [sorted(df[col].dropna().unique())] *)
Definition sorted_labels (col : list (option string)) : list string :=
  sorted (unique (dropna col)).

(** [Series.value_counts()] (with its default [dropna=True]) as the mapping
    label -> count.  The ordering of the resulting series is not modelled. *)
Definition bump (v : option string) (m : gmap string nat) : gmap string nat :=
  match v with
  | Some l => <[l := S (default 0 (m !! l))]> m
  | None => m
  end.

Definition value_counts (col : list (option string)) : gmap string nat :=
  foldr bump ∅ col.

(** Sum of a count mapping over all its labels. *)
Definition total (m : gmap string nat) : nat :=
  map_fold (λ _ n acc, n + acc) 0 m.

(** Occurrences of a label in a column. *)
Definition occurrences (l : string) (col : list (option string)) : nat :=
  length (filter (λ v, v = Some l) col).

(** ** Clean and validate (lines 37-39) *)

Section Clean.

(** [pd.to_numeric]'s text-to-float parser; [None] is a parse failure. *)
Variable to_float : string → option float64.

(** [pd.to_numeric(_, errors="coerce")] on one cell: a failure becomes
    [NaN], nothing is raised. *)
Definition to_numeric (c : cell) : cell :=
  match c with
  | NaN => NaN
  | Num x => Num x
  | Text s => match to_float s with
              | Some x => Num x
              | None => NaN
              end
  end.

Definition coerce_coordinates (r : PoiRecord) : PoiRecord :=
  {| row_label := row_label r;
     POI_NAME := POI_NAME r;
     CATEGORY_MAIN := CATEGORY_MAIN r;
     CITY := CITY r;
     STATE := STATE r;
     LATITUDE := to_numeric (LATITUDE r);
     LONGITUDE := to_numeric (LONGITUDE r);
     passthrough := passthrough r |}.

(** The row test of [df.dropna(subset=["LATITUDE", "LONGITUDE"])]. *)
Definition has_coordinates (r : PoiRecord) : bool :=
  negb (isna (LATITUDE r)) && negb (isna (LONGITUDE r)).

Definition dropna_subset (df : DataFrame) : DataFrame :=
  filter (λ r, has_coordinates r = true) df.

(** Lines 37-39 together: the spec's [sanitize]. *)
Definition sanitize (df : DataFrame) : DataFrame :=
  dropna_subset (map coerce_coordinates df).

End Clean.

(** ** Sidebar filters (lines 43-59) *)

Definition category_options (df : DataFrame) : list string :=
  sorted_labels (map CATEGORY_MAIN df).

(** [df[df["CATEGORY_MAIN"] == category]] *)
Definition by_category (df : DataFrame) (category : string) : DataFrame :=
  filter (λ r, CATEGORY_MAIN r = Some category) df.

(** [if state != "All": filtered_df = filtered_df[filtered_df["STATE"] == state]] *)
Definition by_state (df : DataFrame) (state : string) : DataFrame :=
  if decide (state = "All") then df
  else filter (λ r, STATE r = Some state) df.

Definition by_city (df : DataFrame) (city : string) : DataFrame :=
  if decide (city = "All") then df
  else filter (λ r, CITY r = Some city) df.

(** The part of [state_options] after the ["All"] sentinel. *)
Definition state_labels (df : DataFrame) (category : string) : list string :=
  sorted_labels (map STATE (by_category df category)).

Definition state_options (df : DataFrame) (category : string) : list string :=
  "All" :: state_labels df category.

Definition city_labels (df : DataFrame) (category state : string) : list string :=
  sorted_labels (map CITY (by_state (by_category df category) state)).

Definition city_options (df : DataFrame) (category state : string) : list string :=
  "All" :: city_labels df category state.

(** The value of [filtered_df] after line 59: the spec's [apply]. *)
Definition filtered_df (df : DataFrame) (category state city : string) : DataFrame :=
  by_city (by_state (by_category df category) state) city.

(** ** Aggregates over all data (lines 105 and 116) *)

Definition category_counts (df : DataFrame) : gmap string nat :=
  value_counts (map CATEGORY_MAIN df).

Definition state_counts (df : DataFrame) : gmap string nat :=
  value_counts (map STATE df).

(** ** The script as a renderer *)

(** What the script hands to Streamlit, in call order.  Chart and table
    payloads are kept as data; the pixels are the libraries' business. *)
Inductive Render : Type :=
  | SetPageConfig (page_title layout : string)
  | Title (body : string)
  | Markdown (body : string)
  | Error (body : string)
  | Warning (body : string)
  | Success (body : string)
  | Header (body : string)
  | Subheader (body : string)
  | Selectbox (label : string) (options : list string)
  | Slider (label : string) (min_value max_value value : nat)
  | PydeckChart (data : DataFrame)
  | Dataframe (rows : DataFrame)
  | DownloadButton (label : string) (data : DataFrame) (file_name : string)
  | BarChart (counts : gmap string nat)
  | PlotlyChart (counts : gmap string nat).

(** A library call either returns or raises. *)
Inductive Outcome (A : Type) : Type :=
  | Ok (a : A)
  | Raise (exn : string).
Arguments Ok {A} a.
Arguments Raise {A} exn.

(** How a run ends before its last line. *)
Inductive Halt : Type :=
  | Stopped                   (* st.stop() *)
  | Uncaught (exn : string).  (* an exception nobody handles *)

Inductive Step (A : Type) : Type :=
  | Next (a : A)
  | Ended (h : Halt).
Arguments Next {A} a.
Arguments Ended {A} h.

(** A piece of script: what it rendered, and how it went on. *)
Definition Script (A : Type) : Type := list Render * Step A.

Global Instance script_ret : MRet Script := λ A a, ([], Next a).

Global Instance script_bind : MBind Script := λ A B k m,
  match m with
  | (out, Next a) => let '(out', r) := k a in (out ++ out', r)
  | (out, Ended h) => (out, Ended h)
  end.

Definition emit (r : Render) : Script unit := ([r], Next tt).
Definition stop {A} : Script A := ([], Ended Stopped).
Definition call {A} (o : Outcome A) : Script A :=
  match o with
  | Ok a => mret a
  | Raise exn => ([], Ended (Uncaught exn))
  end.

(** ** The world outside the script *)

(** Everything one run asks of its collaborators: the Snowflake connector,
    [pd.read_sql], and the widgets, whose return values are the user's
    choices. *)
Record World : Type := mkWorld {
  get_connection : Outcome unit;
  read_sql : string → Outcome DataFrame;
  conn_close : Outcome unit;
  selectbox : string → list string → string;
  slider : string → nat → nat → nat → Outcome nat
}.

Definition query : string := "SELECT * FROM POI_ADDRESS_US".

(** The six columns shown in the table (line 93). *)
Definition shown_columns (r : PoiRecord) : PoiRecord :=
  {| row_label := row_label r;
     POI_NAME := POI_NAME r;
     CATEGORY_MAIN := CATEGORY_MAIN r;
     CITY := CITY r;
     STATE := STATE r;
     LATITUDE := LATITUDE r;
     LONGITUDE := LONGITUDE r;
     passthrough := [] |}.

Section App.

Variable to_float : string → option float64.
Variable w : World.

(** Lines 8-10. *)
Definition page_head : Script unit :=
  emit (SetPageConfig "US POI Map" "wide");;
  emit (Title "📍 US POI Map Viewer");;
  emit (Markdown "View Points of Interest from Snowflake with Map, Filters, and Visualizations").

(** Lines 25-34: connect inside [try]/[except], then query and close
    outside of it. *)
Definition fetch : Script DataFrame :=
  match get_connection w with
  | Ok _ => mret tt
  | Raise _ =>
      emit (Error "❌ Failed to connect to Snowflake. Please check your credentials.");;
      stop
  end;;
  df ← call (read_sql w query);
  call (conn_close w);;
  mret df.

(** Lines 42-61: returns [filtered_df] and [row_count]. *)
Definition sidebar (df : DataFrame) : Script (DataFrame * nat) :=
  emit (Header "🔍 Filter Options");;
  let options := category_options df in
  match options with
  | [] => emit (Warning "No categories found in the data.");; stop
  | _ => mret tt
  end;;
  emit (Selectbox "Select Category" options);;
  let category := selectbox w "Select Category" options in
  emit (Selectbox "Select State" (state_options df category));;
  let state := selectbox w "Select State" (state_options df category) in
  emit (Selectbox "Select City" (city_options df category state));;
  let city := selectbox w "Select City" (city_options df category state) in
  let selection := filtered_df df category state city in
  let label := "Number of rows to display" in
  let value := 10 `min` length selection in
  emit (Slider label 1 (length selection) value);;
  row_count ← call (slider w label 1 (length selection) value);
  mret (selection, row_count).

(** Lines 67-89.  The view state's centre (the two column means) is
    floating-point arithmetic inside the chart and is not modelled. *)
Definition map_view (selection : DataFrame) : Script unit :=
  emit (Subheader "🗺️ Map View");;
  match selection with
  | _ :: _ => emit (PydeckChart selection)
  | [] => emit (Warning "No data available for the selected filters.")
  end.

(** Lines 64-101. *)
Definition main_panel (selection : DataFrame) (row_count : nat) : Script unit :=
  emit (Success ("Total POIs in selection: " +:+ pretty (length selection)));;
  map_view selection;;
  emit (Subheader "📋 Selected POI Records");;
  emit (Dataframe (take row_count (map shown_columns selection)));;
  emit (DownloadButton "⬇️ Download Filtered Data as CSV" selection "filtered_poi_data.csv").

(** Lines 104-118. *)
Definition charts (df : DataFrame) : Script unit :=
  emit (Subheader "📊 POI Category Distribution (All Data)");;
  emit (BarChart (category_counts df));;
  emit (Subheader "📈 Category Distribution Pie Chart");;
  emit (PlotlyChart (category_counts df));;
  emit (Subheader "🏙️ POI Distribution by State (All Data)");;
  emit (BarChart (state_counts df)).

(** One run of the script, top to bottom. *)
Definition app : Script unit :=
  page_head;;
  raw ← fetch;
  let df := sanitize to_float raw in
  '(selection, row_count) ← sidebar df;
  main_panel selection row_count;;
  charts df.

End App.

(** ** Reading a run *)

Definition rendered {A} (m : Script A) : list Render := m.1.

Definition is_map (r : Render) : bool :=
  match r with PydeckChart _ => true | _ => false end.

Definition is_table (r : Render) : bool :=
  match r with Dataframe _ => true | _ => false end.

(** The count mappings handed to the three charts, in the order drawn:
    category bar chart, category pie chart, state bar chart. *)
Definition chart_counts (r : Render) : option (gmap string nat) :=
  match r with
  | BarChart m | PlotlyChart m => Some m
  | _ => None
  end.

Definition aggregates (out : list Render) : list (gmap string nat) :=
  omap chart_counts out.

Definition no_data : string := "No data available for the selected filters.".

(** The widgets the sidebar draws once a category list exists. *)
Definition sidebar_widgets (df : DataFrame) (category state : string) (n : nat)
    : list Render :=
  [ Header "🔍 Filter Options";
    Selectbox "Select Category" (category_options df);
    Selectbox "Select State" (state_options df category);
    Selectbox "Select City" (city_options df category state);
    Slider "Number of rows to display" 1 n (10 `min` n) ].

(** Streamlit's contract for [st.selectbox]: the value returned is one of
    the options offered. *)
Definition returns_an_option (w : World) : Prop :=
  ∀ label options, options ≠ [] → selectbox w label options ∈ options.

(** ** Concrete inputs used by the examples *)

(** A parser that knows a few decimal literals; enough to run the script. *)
Definition parse_small (s : string) : option float64 :=
  if decide (s = "1") then Some (Finite 1 0)
  else if decide (s = "2") then Some (Finite 2 0)
  else if decide (s = "3") then Some (Finite 3 0)
  else None.

Definition poi (i : nat) (category state city : option string) (lat lon : cell) : PoiRecord :=
  mkPoi i (Some "poi") category city state lat lon [].

(** The three-record scenario of the spec: the second latitude is text that
    does not parse. *)
Definition three_records : DataFrame :=
  [ poi 0 (Some "A") (Some "TX") (Some "Austin") (Text "1") (Text "1");
    poi 1 (Some "A") (Some "TX") None (Text "bad") (Text "2");
    poi 2 (Some "B") (Some "CA") (Some "Fresno") (Num (Finite 3 0)) (Num (Finite 3 0)) ].

(** A user who always takes the first entry of a select box and leaves the
    slider at its initial value. *)
Definition first_option (label : string) (options : list string) : string :=
  default "" (head options).

Definition keep_initial (label : string) (lo hi value : nat) : Outcome nat := Ok value.

Definition world_of (rows : DataFrame) : World :=
  mkWorld (Ok tt) (λ _, Ok rows) (Ok tt) first_option keep_initial.

Definition last_option (label : string) (options : list string) : string :=
  default "" (last options).

(** A query that fails on an open connection. *)
Definition world_query_fails : World :=
  mkWorld (Ok tt) (λ _, Raise "ProgrammingError: Object 'POI_ADDRESS_US' does not exist")
          (Ok tt) first_option keep_initial.

(** The five ways a run can end before line 64, each with what ends it. *)
Inductive EarlyEnd (to_float : string → option float64) (w : World) : Halt → Prop :=
  | connect_raised exn :
      get_connection w = Raise exn →
      EarlyEnd to_float w Stopped
  | query_raised exn :
      get_connection w = Ok tt →
      read_sql w query = Raise exn →
      EarlyEnd to_float w (Uncaught exn)
  | close_raised raw exn :
      get_connection w = Ok tt →
      read_sql w query = Ok raw →
      conn_close w = Raise exn →
      EarlyEnd to_float w (Uncaught exn)
  | no_categories raw :
      get_connection w = Ok tt →
      read_sql w query = Ok raw →
      conn_close w = Ok tt →
      category_options (sanitize to_float raw) = [] →
      EarlyEnd to_float w Stopped
  | slider_raised raw exn :
      get_connection w = Ok tt →
      read_sql w query = Ok raw →
      conn_close w = Ok tt →
      let df := sanitize to_float raw in
      let category := selectbox w "Select Category" (category_options df) in
      let state := selectbox w "Select State" (state_options df category) in
      let city := selectbox w "Select City" (city_options df category state) in
      let selection := filtered_df df category state city in
      category_options df ≠ [] →
      slider w "Number of rows to display" 1 (length selection)
             (10 `min` length selection) = Raise exn →
      EarlyEnd to_float w (Uncaught exn).

(** A render command that shows fetched data: the map, the table, the
    download and the three charts. *)
Definition draws_data (r : Render) : bool :=
  match r with
  | PydeckChart _ | Dataframe _ | DownloadButton _ _ _
  | BarChart _ | PlotlyChart _ => true
  | _ => false
  end.

(** What a slider call must satisfy to be a range with its handle inside:
    lower bound 1, initial value between the bounds and at most 10. *)
Definition slider_in_range (r : Render) : Prop :=
  match r with
  | Slider _ lo hi v => lo = 1 ∧ lo ≤ v ∧ v ≤ hi ∧ v ≤ 10
  | _ => True
  end.

(** The rows a selection keeps, as one test on a row. *)
Definition matches (category state city : string) (r : PoiRecord) : Prop :=
  CATEGORY_MAIN r = Some category
  ∧ (state = "All" ∨ STATE r = Some state)
  ∧ (city = "All" ∨ CITY r = Some city).

Global Instance matches_dec category state city r :
  Decision (matches category state city r).
Proof. unfold matches. apply _. Defined.

(** A server that refuses the connection. *)
Definition world_connect_fails : World :=
  mkWorld (Raise "DatabaseError: 250001: Could not connect to Snowflake backend")
          (λ _, Ok three_records) (Ok tt) first_option keep_initial.

(** A connection that delivers the rows and then fails to close. *)
Definition world_close_fails : World :=
  mkWorld (Ok tt) (λ _, Ok three_records)
          (Raise "OperationalError: failed to close session")
          first_option keep_initial.

(** ** Reruns in one process (lines 13-14, 25-34) *)

(** [get_connection] is wrapped in [st.cache_resource] and takes no
    argument, so the process holds at most one connection object: [None]
    while no call has returned yet, afterwards the object every later call
    hands out again, here with the one thing the script changes about it,
    whether it is still open. *)
Definition Process : Type := option bool.

(** What the libraries answer during one run: whether connecting works, what
    a query and a close give on an open ([true]) or closed ([false])
    connection, and the widgets. *)
Record Driver : Type := mkDriver {
  connect : Outcome unit;
  read_on : bool → string → Outcome DataFrame;
  close_on : bool → Outcome unit;
  choose : string → list string → string;
  slide : string → nat → nat → nat → Outcome nat
}.

(** The cached [get_connection]: a hit returns the stored object as it is;
    a miss connects, and stores the object only if connecting returned. *)
Definition cached_get_connection (d : Driver) (p : Process)
    : Outcome bool * Process :=
  match p with
  | Some is_open => (Ok is_open, p)
  | None =>
      match connect d with
      | Ok _ => (Ok true, Some true)
      | Raise exn => (Raise exn, None)
      end
  end.

(** The world one run of the script sees in process state [p]. *)
Definition world_in (d : Driver) (p : Process) : World :=
  match fst (cached_get_connection d p) with
  | Ok is_open =>
      mkWorld (Ok tt) (read_on d is_open) (close_on d is_open) (choose d) (slide d)
  | Raise exn =>
      mkWorld (Raise exn) (read_on d false) (close_on d false) (choose d) (slide d)
  end.

(** The process state the run leaves behind: [conn.close()] on line 34 is
    reached only when the query returned, and closes the cached object. *)
Definition process_after (d : Driver) (p : Process) : Process :=
  match cached_get_connection d p with
  | (Raise _, p') => p'
  | (Ok is_open, p') =>
      match read_on d is_open query with
      | Raise _ => p'
      | Ok _ =>
          match close_on d is_open with
          | Ok _ => Some false
          | Raise _ => p'
          end
      end
  end.

(** A driver that serves the three records on an open connection and
    refuses a closed one. *)
Definition strict_driver : Driver :=
  mkDriver (Ok tt)
           (λ is_open _, if is_open then Ok three_records
                         else Raise "ProgrammingError: Connection is closed")
           (λ _, Ok tt) first_option keep_initial.

(** * Properties *)

#[local] Set Warnings "-clear-no-such-hyp".

(** ** Lists of labels *)

Lemma filter_all {A} (P : A → Prop) `{!∀ x, Decision (P x)} (l : list A) :
  Forall P l → filter P l = l.
Proof.
  induction 1 as [|x l Hx _ IH]; [done|].
  rewrite filter_cons_True by done. by rewrite IH.
Qed.

Lemma elem_of_unique (x : string) (col : list string) :
  x ∈ unique col ↔ x ∈ col.
Proof.
  induction col as [|y col IH]; simpl; [done|].
  rewrite !elem_of_cons, list_elem_of_filter, IH.
  destruct (decide (x = y)); naive_solver.
Qed.

Lemma elem_of_sorted (x : string) (l : list string) : x ∈ sorted l ↔ x ∈ l.
Proof. unfold sorted. by rewrite merge_sort_Permutation. Qed.

Lemma elem_of_dropna (x : string) (col : list (option string)) :
  x ∈ dropna col ↔ Some x ∈ col.
Proof.
  unfold dropna. rewrite list_elem_of_omap. split.
  - intros (o & Ho & Heq). simpl in Heq. by subst.
  - intros Hx. by exists (Some x).
Qed.

Lemma elem_of_sorted_labels (x : string) (col : list (option string)) :
  x ∈ sorted_labels col ↔ Some x ∈ col.
Proof.
  unfold sorted_labels.
  by rewrite elem_of_sorted, elem_of_unique, elem_of_dropna.
Qed.

Lemma elem_of_column {A} (f : PoiRecord → A) (v : A) (df : DataFrame) :
  v ∈ map f df ↔ ∃ r, r ∈ df ∧ f r = v.
Proof.
  change (map f df) with (f <$> df). rewrite list_elem_of_fmap. naive_solver.
Qed.

(** ** The three filters *)

Lemma elem_of_by_category r df c :
  r ∈ by_category df c ↔ r ∈ df ∧ CATEGORY_MAIN r = Some c.
Proof. unfold by_category. rewrite list_elem_of_filter. tauto. Qed.

Lemma elem_of_by_state r df s :
  r ∈ by_state df s ↔ r ∈ df ∧ (s = "All" ∨ STATE r = Some s).
Proof.
  unfold by_state. case_decide.
  - tauto.
  - rewrite list_elem_of_filter. tauto.
Qed.

Lemma elem_of_by_city r df ci :
  r ∈ by_city df ci ↔ r ∈ df ∧ (ci = "All" ∨ CITY r = Some ci).
Proof.
  unfold by_city. case_decide.
  - tauto.
  - rewrite list_elem_of_filter. tauto.
Qed.

Lemma elem_of_filtered_df r df c s ci :
  r ∈ filtered_df df c s ci ↔
  r ∈ df ∧ CATEGORY_MAIN r = Some c
  ∧ (s = "All" ∨ STATE r = Some s) ∧ (ci = "All" ∨ CITY r = Some ci).
Proof.
  unfold filtered_df.
  rewrite elem_of_by_city, elem_of_by_state, elem_of_by_category. tauto.
Qed.

Lemma by_category_sublist df c : by_category df c `sublist_of` df.
Proof. apply sublist_filter. Qed.

Lemma by_state_sublist df s : by_state df s `sublist_of` df.
Proof. unfold by_state. case_decide; [done|apply sublist_filter]. Qed.

Lemma by_city_sublist df ci : by_city df ci `sublist_of` df.
Proof. unfold by_city. case_decide; [done|apply sublist_filter]. Qed.

Lemma by_category_fixed df c :
  Forall (λ r, CATEGORY_MAIN r = Some c) df → by_category df c = df.
Proof. apply filter_all. Qed.

Lemma by_state_fixed df s :
  Forall (λ r, s = "All" ∨ STATE r = Some s) df → by_state df s = df.
Proof.
  intros H. unfold by_state. case_decide; [done|].
  apply filter_all. eapply Forall_impl; [exact H|]. naive_solver.
Qed.

Lemma by_city_fixed df ci :
  Forall (λ r, ci = "All" ∨ CITY r = Some ci) df → by_city df ci = df.
Proof.
  intros H. unfold by_city. case_decide; [done|].
  apply filter_all. eapply Forall_impl; [exact H|]. naive_solver.
Qed.

Lemma Forall_filtered_df df c s ci :
  Forall (λ r, CATEGORY_MAIN r = Some c
               ∧ (s = "All" ∨ STATE r = Some s)
               ∧ (ci = "All" ∨ CITY r = Some ci)) (filtered_df df c s ci).
Proof.
  apply Forall_forall. intros r Hr.
  apply elem_of_filtered_df in Hr. tauto.
Qed.

(** ** Option lists *)

Lemma elem_of_category_options l df :
  l ∈ category_options df ↔ ∃ r, r ∈ df ∧ CATEGORY_MAIN r = Some l.
Proof.
  unfold category_options. by rewrite elem_of_sorted_labels, elem_of_column.
Qed.

Lemma elem_of_state_labels l df c :
  l ∈ state_labels df c ↔
  ∃ r, r ∈ df ∧ CATEGORY_MAIN r = Some c ∧ STATE r = Some l.
Proof.
  unfold state_labels. rewrite elem_of_sorted_labels, elem_of_column.
  setoid_rewrite elem_of_by_category. naive_solver.
Qed.

Lemma elem_of_city_labels l df c s :
  l ∈ city_labels df c s ↔
  ∃ r, r ∈ df ∧ CATEGORY_MAIN r = Some c
       ∧ (s = "All" ∨ STATE r = Some s) ∧ CITY r = Some l.
Proof.
  unfold city_labels. rewrite elem_of_sorted_labels, elem_of_column.
  setoid_rewrite elem_of_by_state. setoid_rewrite elem_of_by_category.
  naive_solver.
Qed.

(** C1.  Every state label offered for a category, that is every entry of
    the state option list after its ["All"] sentinel, is the state of some
    record whose category is the selected one; no other label is offered.
    Likewise every city label offered, every entry of the city option list
    after its sentinel, is the city of some record that matches the
    selected category and, unless the state is ["All"], the selected
    state. *)
Theorem option_labels_come_from_filtered_records df c s :
  state_options df c = "All" :: state_labels df c
  ∧ Forall (λ l, ∃ r, r ∈ df ∧ CATEGORY_MAIN r = Some c ∧ STATE r = Some l)
           (state_labels df c)
  ∧ city_options df c s = "All" :: city_labels df c s
  ∧ Forall (λ l, ∃ r, r ∈ df ∧ CATEGORY_MAIN r = Some c
                      ∧ (s = "All" ∨ STATE r = Some s) ∧ CITY r = Some l)
           (city_labels df c s).
Proof.
  split_and!; [done| |done|].
  - apply Forall_forall. intros l Hl. by apply elem_of_state_labels.
  - apply Forall_forall. intros l Hl. by apply elem_of_city_labels.
Qed.

(** The spec's scenario: category A has records in TX only, so CA is not
    offered. *)
Example only_TX_is_offered :
  state_options (sanitize parse_small three_records) "A" = ["All"; "TX"].
Proof. by vm_compute. Qed.

(** ** The selection *)

(** C7.  Filtering a second time with the same selection changes nothing. *)
Theorem filtered_df_idempotent df c s ci :
  filtered_df (filtered_df df c s ci) c s ci = filtered_df df c s ci.
Proof.
  pose proof (Forall_filtered_df df c s ci) as Hall.
  set (sel := filtered_df df c s ci) in *.
  unfold filtered_df at 1.
  rewrite by_category_fixed by (eapply Forall_impl; [exact Hall|]; naive_solver).
  rewrite by_state_fixed by (eapply Forall_impl; [exact Hall|]; naive_solver).
  apply by_city_fixed. eapply Forall_impl; [exact Hall|]. naive_solver.
Qed.

(** C10.  The selection is a subsequence of the data frame: rows are taken
    whole, none twice, in the order they had; in particular the index labels
    of the selection are a subsequence of the index labels of the frame. *)
Theorem filtered_df_subsequence df c s ci :
  filtered_df df c s ci `sublist_of` df
  ∧ map row_label (filtered_df df c s ci) `sublist_of` map row_label df.
Proof.
  assert (filtered_df df c s ci `sublist_of` df) as Hsub.
  { unfold filtered_df.
    etrans; [apply by_city_sublist|].
    etrans; [apply by_state_sublist|]. apply by_category_sublist. }
  split; [done|]. by apply (fmap_sublist row_label).
Qed.

Lemma filtered_df_inhabited df c s ci :
  c ∈ category_options df →
  s = "All" ∨ s ∈ state_options df c →
  ci = "All" ∨ ci ∈ city_options df c s →
  ∃ r, r ∈ filtered_df df c s ci.
Proof.
  intros Hc Hs Hci. setoid_rewrite elem_of_filtered_df.
  assert (ci = "All" ∨ ci ∈ city_labels df c s) as [->|Hci'].
  { destruct Hci as [?|Hci]; [by left|].
    unfold city_options in Hci. by apply elem_of_cons in Hci. }
  - assert (s = "All" ∨ s ∈ state_labels df c) as [->|Hs'].
    { destruct Hs as [?|Hs]; [by left|].
      unfold state_options in Hs. by apply elem_of_cons in Hs. }
    + apply elem_of_category_options in Hc as (r & ? & ?).
      exists r. auto.
    + apply elem_of_state_labels in Hs' as (r & ? & ? & ?).
      exists r. auto.
  - apply elem_of_city_labels in Hci' as (r & ? & ? & ? & ?).
    exists r. auto.
Qed.

(** C9.  A selection made from the derived option lists always matches at
    least one record: the slider's upper bound is at least its lower bound 1,
    and the map view takes its chart branch, never its warning branch. *)
Theorem selection_from_options_is_nonempty df c s ci :
  c ∈ category_options df →
  s = "All" ∨ s ∈ state_options df c →
  ci = "All" ∨ ci ∈ city_options df c s →
  filtered_df df c s ci ≠ []
  ∧ 1 ≤ length (filtered_df df c s ci)
  ∧ Nat.max 1 (length (filtered_df df c s ci)) = length (filtered_df df c s ci)
  ∧ map_view (filtered_df df c s ci)
    = (emit (Subheader "🗺️ Map View");; emit (PydeckChart (filtered_df df c s ci))).
Proof.
  intros Hc Hs Hci.
  destruct (filtered_df_inhabited df c s ci Hc Hs Hci) as [r Hr].
  destruct (filtered_df df c s ci) as [|r0 sel] eqn:Hsel.
  - by apply elem_of_nil in Hr.
  - split_and!; [done|simpl; lia|simpl; lia|done].
Qed.

(** A run of C9 on the three-record scenario: category ["A"], state ["TX"],
    city ["All"]. *)
Lemma selection_from_options_is_nonempty_witness :
  filtered_df three_records "A" "TX" "All" ≠ []
  ∧ 1 ≤ length (filtered_df three_records "A" "TX" "All")
  ∧ Nat.max 1 (length (filtered_df three_records "A" "TX" "All"))
    = length (filtered_df three_records "A" "TX" "All")
  ∧ map_view (filtered_df three_records "A" "TX" "All")
    = (emit (Subheader "🗺️ Map View");;
       emit (PydeckChart (filtered_df three_records "A" "TX" "All"))).
Proof.
  apply (selection_from_options_is_nonempty three_records "A" "TX" "All").
  - apply (bool_decide_unpack _). vm_compute. exact I.
  - right. apply (bool_decide_unpack _). vm_compute. exact I.
  - left. reflexivity.
Defined.

(** ** Clean and validate *)

Section CleanFacts.

Variable to_float : string → option float64.

Lemma to_numeric_shape c :
  to_numeric to_float c = NaN ∨ ∃ x, to_numeric to_float c = Num x.
Proof.
  destruct c as [|x|s]; simpl; [by left|by right; exists x|].
  destruct (to_float s) as [x|]; [right; by exists x|by left].
Qed.

Lemma has_coordinates_coerced r :
  has_coordinates (coerce_coordinates to_float r) = true ↔
  ∃ x y, LATITUDE (coerce_coordinates to_float r) = Num x
         ∧ LONGITUDE (coerce_coordinates to_float r) = Num y.
Proof.
  unfold has_coordinates. simpl.
  destruct (to_numeric_shape (LATITUDE r)) as [->|[x ->]],
           (to_numeric_shape (LONGITUDE r)) as [->|[y ->]]; simpl;
    naive_solver.
Qed.

Lemma sanitize_unfold df :
  sanitize to_float df
  = map (coerce_coordinates to_float)
        (filter (λ r, has_coordinates (coerce_coordinates to_float r) = true) df).
Proof.
  unfold sanitize, dropna_subset.
  induction df as [|r df IH]; [done|].
  simpl. rewrite !filter_cons.
  destruct (decide (has_coordinates (coerce_coordinates to_float r) = true));
    simpl; by rewrite IH.
Qed.

(** C2.  After cleaning, every record carries a number in both coordinate
    columns.  The records that remain are exactly the records whose two
    coordinates coerce to numbers, each with its coordinates coerced and
    every other column and its index label as it was, in the order they
    had.  Text that does not parse becomes [NaN]; [sanitize] is a total
    function, so nothing is raised. *)
Theorem sanitize_drops_missing_keeps_order df :
  Forall (λ r, ∃ x y, LATITUDE r = Num x ∧ LONGITUDE r = Num y)
         (sanitize to_float df)
  ∧ (∃ kept, kept `sublist_of` df
             ∧ kept = filter (λ r, has_coordinates (coerce_coordinates to_float r) = true) df
             ∧ sanitize to_float df = map (coerce_coordinates to_float) kept)
  ∧ map row_label (sanitize to_float df) `sublist_of` map row_label df
  ∧ Forall (λ r', ∃ r, r ∈ df
                       ∧ row_label r' = row_label r
                       ∧ POI_NAME r' = POI_NAME r
                       ∧ CATEGORY_MAIN r' = CATEGORY_MAIN r
                       ∧ CITY r' = CITY r
                       ∧ STATE r' = STATE r
                       ∧ passthrough r' = passthrough r
                       ∧ LATITUDE r' = to_numeric to_float (LATITUDE r)
                       ∧ LONGITUDE r' = to_numeric to_float (LONGITUDE r))
           (sanitize to_float df)
  ∧ (∀ s, to_float s = None → to_numeric to_float (Text s) = NaN).
Proof.
  set (ok := λ r, has_coordinates (coerce_coordinates to_float r) = true).
  assert (filter ok df `sublist_of` df) as Hsub by apply sublist_filter.
  split_and!.
  - rewrite sanitize_unfold. apply Forall_forall. intros r' Hr'.
    apply elem_of_column in Hr' as (r & Hr & <-).
    apply list_elem_of_filter in Hr as [Hok _].
    by apply has_coordinates_coerced.
  - exists (filter ok df). split_and!; [done|done|apply sanitize_unfold].
  - rewrite sanitize_unfold.
    change (map row_label (map (coerce_coordinates to_float) (filter ok df)))
      with (row_label <$> (coerce_coordinates to_float <$> filter ok df)).
    rewrite <-list_fmap_compose.
    by apply (fmap_sublist row_label).
  - rewrite sanitize_unfold. apply Forall_forall. intros r' Hr'.
    apply elem_of_column in Hr' as (r & Hr & <-).
    apply list_elem_of_filter in Hr as [_ Hr].
    exists r. by split_and!.
  - intros s Hs. simpl. by rewrite Hs.
Qed.

End CleanFacts.

(** The spec's scenario: of three records the second has an unparsable
    latitude; rows 0 and 2 remain, and the category options are A and B. *)
Example sanitize_three_records :
  map row_label (sanitize parse_small three_records) = [0; 2]
  ∧ category_options (sanitize parse_small three_records) = ["A"; "B"]
  ∧ map row_label (filtered_df (sanitize parse_small three_records) "A" "All" "All") = [0].
Proof. by vm_compute. Qed.

(** ** Aggregates *)

Lemma total_empty : total ∅ = 0.
Proof. unfold total. apply map_fold_empty. Qed.

Lemma total_insert_fresh (m : gmap string nat) l n :
  m !! l = None → total (<[l:=n]> m) = n + total m.
Proof.
  intros Hl. unfold total.
  rewrite map_fold_insert_L; [done| |done]. intros; lia.
Qed.

Lemma total_delete (m : gmap string nat) l n :
  m !! l = Some n → total m = n + total (delete l m).
Proof.
  intros Hl. unfold total.
  rewrite (map_fold_delete_L _ _ l n m); [done| |done]. intros; lia.
Qed.

Lemma total_bump v (m : gmap string nat) :
  total (bump v m) = (if v is Some _ then 1 else 0) + total m.
Proof.
  destruct v as [l|]; simpl; [|done].
  destruct (m !! l) as [n|] eqn:Hl; simpl.
  - rewrite <-insert_delete_eq, total_insert_fresh by apply lookup_delete_eq.
    rewrite (total_delete m l n) by done. lia.
  - by rewrite total_insert_fresh.
Qed.

Lemma total_value_counts col :
  total (value_counts col) = length (dropna col).
Proof.
  induction col as [|v col IH]; simpl.
  - apply total_empty.
  - rewrite total_bump, IH. by destruct v.
Qed.

Lemma lookup_value_counts col l :
  value_counts col !! l
  = (if occurrences l col is 0 then None else Some (occurrences l col)).
Proof.
  unfold occurrences. induction col as [|v col IH]; [done|].
  rewrite filter_cons. cbn [value_counts foldr].
  fold (value_counts col). case_decide as Hv.
  - subst v. simpl. rewrite lookup_insert_eq, IH.
    by destruct (length _).
  - destruct v as [l'|]; simpl; [|done].
    rewrite lookup_insert_ne by congruence. done.
Qed.

Lemma length_dropna_column (f : PoiRecord → option string) df :
  length (dropna (map f df)) = length (filter (λ r, is_Some (f r)) df).
Proof.
  induction df as [|r df IH]; [done|].
  rewrite filter_cons. case_decide as Hr.
  - destruct Hr as [l Hl]. unfold dropna in *. simpl. rewrite Hl. simpl.
    f_equal. apply IH.
  - destruct (f r) as [l|] eqn:Hf; [destruct Hr; eauto|].
    unfold dropna in *. simpl. rewrite Hf. apply IH.
Qed.

Lemma occurrences_column (f : PoiRecord → option string) l df :
  occurrences l (map f df) = length (filter (λ r, f r = Some l) df).
Proof.
  unfold occurrences. induction df as [|r df IH]; [done|].
  simpl. rewrite !filter_cons.
  destruct (decide (f r = Some l)); simpl; by rewrite IH.
Qed.

(** C5.  Summed over all labels, the category counts give the number of
    records with a category, and the state counts the number of records with
    a state.  The mapping has an entry for a label exactly when some record
    carries that label, and the entry is the number of such records; a
    record without a value adds to no entry. *)
Theorem counts_sum_to_nonmissing df :
  total (category_counts df)
    = length (filter (λ r, is_Some (CATEGORY_MAIN r)) df)
  ∧ total (state_counts df)
    = length (filter (λ r, is_Some (STATE r)) df)
  ∧ (∀ l, category_counts df !! l
          = (if length (by_category df l) is 0 then None
             else Some (length (by_category df l))))
  ∧ (∀ l, state_counts df !! l
          = (if length (filter (λ r, STATE r = Some l) df) is 0 then None
             else Some (length (filter (λ r, STATE r = Some l) df)))).
Proof.
  unfold category_counts, state_counts, by_category. split_and!.
  - by rewrite total_value_counts, length_dropna_column.
  - by rewrite total_value_counts, length_dropna_column.
  - intros l. by rewrite lookup_value_counts, occurrences_column.
  - intros l. by rewrite lookup_value_counts, occurrences_column.
Qed.

(** Two of three records have a category, so the counts sum to 2, not 3. *)
Example counts_skip_missing :
  total (category_counts
           [ poi 0 (Some "A") None None NaN NaN;
             poi 1 None None None NaN NaN;
             poi 2 (Some "A") None None NaN NaN ]) = 2.
Proof. by vm_compute. Qed.

(** ** Runs of the script *)

Section Runs.

Variable to_float : string → option float64.
Variable w : World.

Lemma bind_next {A B} (out : list Render) (a : A) (k : A → Script B) :
  ((out, Next a) ≫= k) = ((out ++ (k a).1), (k a).2).
Proof. unfold mbind, script_bind. by destruct (k a). Qed.

Lemma bind_ended {A B} (out : list Render) h (k : A → Script B) :
  ((out, Ended h) ≫= k) = (out, Ended h).
Proof. done. Qed.

Lemma fetch_connect_fails exn :
  get_connection w = Raise exn →
  fetch w
  = ([Error "❌ Failed to connect to Snowflake. Please check your credentials."],
     Ended Stopped).
Proof. intros H. unfold fetch. by rewrite H. Qed.

Lemma fetch_query_fails exn :
  get_connection w = Ok tt → read_sql w query = Raise exn →
  fetch w = ([], Ended (Uncaught exn)).
Proof. intros H1 H2. unfold fetch. by rewrite H1, H2. Qed.

Lemma fetch_close_fails raw exn :
  get_connection w = Ok tt → read_sql w query = Ok raw →
  conn_close w = Raise exn →
  fetch w = ([], Ended (Uncaught exn)).
Proof. intros H1 H2 H3. unfold fetch. by rewrite H1, H2, H3. Qed.

Lemma fetch_ok raw :
  get_connection w = Ok tt → read_sql w query = Ok raw → conn_close w = Ok tt →
  fetch w = ([], Next raw).
Proof. intros H1 H2 H3. unfold fetch. by rewrite H1, H2, H3. Qed.

Lemma sidebar_no_categories df :
  category_options df = [] →
  sidebar w df
  = ([Header "🔍 Filter Options"; Warning "No categories found in the data."],
     Ended Stopped).
Proof. intros H. unfold sidebar. by rewrite H. Qed.

Lemma sidebar_run df :
  category_options df ≠ [] →
  let category := selectbox w "Select Category" (category_options df) in
  let state := selectbox w "Select State" (state_options df category) in
  let city := selectbox w "Select City" (city_options df category state) in
  let selection := filtered_df df category state city in
  sidebar w df
  = match slider w "Number of rows to display" 1 (length selection)
                 (10 `min` length selection) with
    | Ok row_count =>
        (sidebar_widgets df category state (length selection),
         Next (selection, row_count))
    | Raise exn =>
        (sidebar_widgets df category state (length selection),
         Ended (Uncaught exn))
    end.
Proof.
  intros Hne. simpl. unfold sidebar, sidebar_widgets.
  destruct (category_options df) as [|o os] eqn:Hopts; [done|].
  by destruct (slider w _ _ _ _).
Qed.

Lemma main_panel_run selection row_count :
  main_panel selection row_count
  = (rendered (main_panel selection row_count), Next tt).
Proof. unfold main_panel, map_view, rendered. by destruct selection. Qed.

Lemma charts_run df : charts df = (rendered (charts df), Next tt).
Proof. done. Qed.

Lemma app_connect_fails exn :
  get_connection w = Raise exn →
  app to_float w
  = (rendered page_head
     ++ [Error "❌ Failed to connect to Snowflake. Please check your credentials."],
     Ended Stopped).
Proof. intros H. unfold app. by rewrite (fetch_connect_fails exn). Qed.

Lemma app_query_fails exn :
  get_connection w = Ok tt → read_sql w query = Raise exn →
  app to_float w = (rendered page_head, Ended (Uncaught exn)).
Proof. intros H1 H2. unfold app. by rewrite (fetch_query_fails exn). Qed.

Lemma app_close_fails raw exn :
  get_connection w = Ok tt → read_sql w query = Ok raw →
  conn_close w = Raise exn →
  app to_float w = (rendered page_head, Ended (Uncaught exn)).
Proof. intros H1 H2 H3. unfold app. by rewrite (fetch_close_fails raw exn). Qed.

Section Fetched.

Variable raw : DataFrame.
Hypothesis connected : get_connection w = Ok tt.
Hypothesis queried : read_sql w query = Ok raw.
Hypothesis closed : conn_close w = Ok tt.

Let df := sanitize to_float raw.
Let category := selectbox w "Select Category" (category_options df).
Let state := selectbox w "Select State" (state_options df category).
Let city := selectbox w "Select City" (city_options df category state).
Let selection := filtered_df df category state city.

Lemma app_no_categories :
  category_options df = [] →
  app to_float w
  = (rendered page_head
     ++ [Header "🔍 Filter Options"; Warning "No categories found in the data."],
     Ended Stopped).
Proof.
  intros H. unfold app. rewrite (fetch_ok raw) by done.
  cbn -[sidebar main_panel charts sanitize]. fold df.
  by rewrite sidebar_no_categories.
Qed.

Lemma app_slider_raises exn :
  category_options df ≠ [] →
  slider w "Number of rows to display" 1 (length selection)
         (10 `min` length selection) = Raise exn →
  app to_float w
  = (rendered page_head ++ sidebar_widgets df category state (length selection),
     Ended (Uncaught exn)).
Proof.
  intros Hne Hsl. unfold app. rewrite (fetch_ok raw) by done.
  cbn -[sidebar main_panel charts sanitize]. fold df.
  rewrite sidebar_run by done.
  fold category state city selection. by rewrite Hsl.
Qed.

Lemma app_completes row_count :
  category_options df ≠ [] →
  slider w "Number of rows to display" 1 (length selection)
         (10 `min` length selection) = Ok row_count →
  app to_float w
  = (rendered page_head
     ++ sidebar_widgets df category state (length selection)
     ++ rendered (main_panel selection row_count)
     ++ rendered (charts df),
     Next tt).
Proof.
  intros Hne Hsl. unfold app. rewrite (fetch_ok raw) by done.
  rewrite bind_next. cbv beta. fold df.
  rewrite sidebar_run by done.
  fold category state city selection. rewrite Hsl.
  rewrite bind_next. cbv beta iota.
  pose proof (main_panel_run selection row_count) as Hmp.
  unfold rendered in *.
  destruct (main_panel selection row_count) as [shown step].
  injection Hmp as ->. reflexivity.
Qed.

End Fetched.

End Runs.

(** ** What a run draws *)

Lemma aggregates_app out1 out2 :
  aggregates (out1 ++ out2) = aggregates out1 ++ aggregates out2.
Proof. unfold aggregates. apply omap_app. Qed.

Lemma aggregates_main_panel selection row_count :
  aggregates (rendered (main_panel selection row_count)) = [].
Proof. by destruct selection. Qed.

Lemma aggregates_sidebar_widgets df category state n :
  aggregates (sidebar_widgets df category state n) = [].
Proof. done. Qed.

Lemma aggregates_charts df :
  aggregates (rendered (charts df))
  = [category_counts df; category_counts df; state_counts df].
Proof. done. Qed.

Lemma no_map_in_empty_main_panel row_count :
  rendered (main_panel [] row_count)
  = [ Success "Total POIs in selection: 0";
      Subheader "🗺️ Map View";
      Warning no_data;
      Subheader "📋 Selected POI Records";
      Dataframe [];
      DownloadButton "⬇️ Download Filtered Data as CSV" [] "filtered_poi_data.csv" ].
Proof. unfold main_panel, rendered. simpl. by rewrite take_nil. Qed.

Lemma table_in_main_panel selection row_count :
  Dataframe (take row_count (map shown_columns selection))
  ∈ rendered (main_panel selection row_count).
Proof.
  unfold main_panel, map_view, rendered.
  destruct selection; simpl; set_solver.
Qed.

(** Every run ends in one of five ways. *)
Lemma app_cases to_float w :
  (∃ exn, get_connection w = Raise exn
          ∧ app to_float w
            = (rendered page_head
               ++ [Error "❌ Failed to connect to Snowflake. Please check your credentials."],
               Ended Stopped))
  ∨ (∃ exn, app to_float w = (rendered page_head, Ended (Uncaught exn)))
  ∨ (∃ raw, read_sql w query = Ok raw
            ∧ category_options (sanitize to_float raw) = []
            ∧ app to_float w
              = (rendered page_head
                 ++ [Header "🔍 Filter Options";
                     Warning "No categories found in the data."],
                 Ended Stopped))
  ∨ (∃ raw exn,
        let df := sanitize to_float raw in
        let category := selectbox w "Select Category" (category_options df) in
        let state := selectbox w "Select State" (state_options df category) in
        let city := selectbox w "Select City" (city_options df category state) in
        let selection := filtered_df df category state city in
        read_sql w query = Ok raw
        ∧ category_options df ≠ []
        ∧ app to_float w
          = (rendered page_head
             ++ sidebar_widgets df category state (length selection),
             Ended (Uncaught exn)))
  ∨ (∃ raw row_count,
        let df := sanitize to_float raw in
        let category := selectbox w "Select Category" (category_options df) in
        let state := selectbox w "Select State" (state_options df category) in
        let city := selectbox w "Select City" (city_options df category state) in
        let selection := filtered_df df category state city in
        read_sql w query = Ok raw
        ∧ category_options df ≠ []
        ∧ app to_float w
          = (rendered page_head
             ++ sidebar_widgets df category state (length selection)
             ++ rendered (main_panel selection row_count)
             ++ rendered (charts df),
             Next tt)).
Proof.
  destruct (get_connection w) as [[]|exn] eqn:Hconn.
  2:{ left. exists exn. split; [done|]. by apply (app_connect_fails to_float w exn). }
  right.
  destruct (read_sql w query) as [raw|exn] eqn:Hsql.
  2:{ left. exists exn. by apply app_query_fails. }
  destruct (conn_close w) as [[]|exn] eqn:Hclose.
  2:{ left. exists exn. by apply (app_close_fails to_float w raw). }
  right.
  destruct (decide (category_options (sanitize to_float raw) = [])) as [Hno|Hsome].
  { left. exists raw. split_and!; [done..|]. by apply (app_no_categories to_float w raw). }
  right.
  pose proof (app_slider_raises to_float w raw Hconn Hsql Hclose) as Hraise.
  pose proof (app_completes to_float w raw Hconn Hsql Hclose) as Hdone.
  cbv zeta in Hraise, Hdone.
  destruct (slider w "Number of rows to display" 1 _ _) as [n|exn] eqn:Hsl.
  - right. exists raw, n. cbv zeta. split_and!; [done..|]. by apply Hdone.
  - left. exists raw, exn. cbv zeta. split_and!; [done..|]. by apply Hraise.
Qed.

(** A run that reaches its last line drew the three charts from the counts
    over the whole cleaned frame, whatever was selected. *)
Lemma aggregates_of_finished_run to_float w raw out :
  read_sql w query = Ok raw →
  app to_float w = (out, Next tt) →
  aggregates out
  = [ category_counts (sanitize to_float raw);
      category_counts (sanitize to_float raw);
      state_counts (sanitize to_float raw) ].
Proof.
  intros Hsql Hrun.
  destruct (app_cases to_float w)
    as [(? & _ & H)|[(? & H)|[(? & _ & _ & H)|[(? & ? & _ & _ & H)
        |(raw' & n & H)]]]];
    try (rewrite H in Hrun; discriminate Hrun).
  cbv zeta in H. destruct H as (Hsql' & _ & H).
  rewrite Hsql in Hsql'. injection Hsql' as <-.
  rewrite H in Hrun. apply (f_equal fst) in Hrun. cbn [fst] in Hrun.
  rewrite <-Hrun.
  rewrite !aggregates_app, aggregates_sidebar_widgets, aggregates_main_panel.
  by rewrite aggregates_charts.
Qed.

(** C6.  Two runs over the same fetched data that both reach the charts draw
    the same category counts and the same state counts, whatever the two
    users selected in the select boxes and on the slider: the counts are
    those of the whole cleaned frame. *)
Theorem aggregates_ignore_the_selection to_float w1 w2 raw out1 out2 :
  read_sql w1 query = Ok raw →
  read_sql w2 query = Ok raw →
  app to_float w1 = (out1, Next tt) →
  app to_float w2 = (out2, Next tt) →
  aggregates out1 = aggregates out2
  ∧ aggregates out1
    = [ category_counts (sanitize to_float raw);
        category_counts (sanitize to_float raw);
        state_counts (sanitize to_float raw) ].
Proof.
  intros Hsql1 Hsql2 Hrun1 Hrun2.
  rewrite (aggregates_of_finished_run to_float w1 raw out1) by done.
  by rewrite (aggregates_of_finished_run to_float w2 raw out2).
Qed.

(** C6 on the three records: one user takes the first entry of every select
    box (category A), the other the last (category B, state CA, city
    Fresno). *)
Lemma aggregates_ignore_the_selection_witness :
  aggregates (rendered (app parse_small (world_of three_records)))
  = aggregates (rendered (app parse_small
       (mkWorld (Ok tt) (λ _, Ok three_records) (Ok tt) last_option keep_initial)))
  ∧ aggregates (rendered (app parse_small (world_of three_records)))
    = [ category_counts (sanitize parse_small three_records);
        category_counts (sanitize parse_small three_records);
        state_counts (sanitize parse_small three_records) ].
Proof.
  apply (aggregates_ignore_the_selection parse_small
           (world_of three_records)
           (mkWorld (Ok tt) (λ _, Ok three_records) (Ok tt) last_option keep_initial)
           three_records).
  - reflexivity.
  - reflexivity.
  - vm_compute. reflexivity.
  - vm_compute. reflexivity.
Defined.

(** C8.  When the cleaned frame has no category at all, the run shows the
    warning and stops there: the warning is the last thing drawn, and neither
    a map nor a table is drawn. *)
Theorem no_categories_halts_the_run to_float w raw :
  get_connection w = Ok tt →
  read_sql w query = Ok raw →
  conn_close w = Ok tt →
  category_options (sanitize to_float raw) = [] →
  ∃ out, app to_float w = (out, Ended Stopped)
         ∧ last out = Some (Warning "No categories found in the data.")
         ∧ Forall (λ r, is_map r = false ∧ is_table r = false) out.
Proof.
  intros Hconn Hsql Hclose Hnone.
  eexists. split; [by apply (app_no_categories to_float w raw)|].
  split; [done|]. unfold rendered, page_head. simpl.
  repeat constructor.
Qed.

(** C8 on an empty source table. *)
Lemma no_categories_halts_the_run_witness :
  ∃ out, app parse_small (world_of []) = (out, Ended Stopped)
         ∧ last out = Some (Warning "No categories found in the data.")
         ∧ Forall (λ r, is_map r = false ∧ is_table r = false) out.
Proof.
  apply (no_categories_halts_the_run parse_small (world_of []) []);
    reflexivity.
Defined.

(** C4, the half the script has: a failure to connect is caught, reported
    and the run stops. *)
Lemma connection_failure_is_reported to_float w exn :
  get_connection w = Raise exn →
  app to_float w
  = (rendered page_head
     ++ [Error "❌ Failed to connect to Snowflake. Please check your credentials."],
     Ended Stopped).
Proof. apply app_connect_fails. Qed.

(** C4, the half it lacks: a query that fails on an open connection is
    handled by nobody.  The run ends in the driver's exception and the script
    has drawn no error message of its own. *)
Theorem query_failure_is_not_caught :
  app parse_small world_query_fails
  = ([ SetPageConfig "US POI Map" "wide";
       Title "📍 US POI Map Viewer";
       Markdown "View Points of Interest from Snowflake with Map, Filters, and Visualizations" ],
     Ended (Uncaught "ProgrammingError: Object 'POI_ADDRESS_US' does not exist")).
Proof. reflexivity. Qed.

(** X17.  With select boxes that return one of their options, no run
    reaches the warning branch of the map view, and the slider is never asked
    for a range below 1. *)
Lemma no_data_branch_is_unreachable to_float w out step :
  returns_an_option w →
  app to_float w = (out, step) →
  (Warning no_data ∉ out)
  ∧ (∀ label lo hi v, Slider label lo hi v ∈ out → lo = 1 ∧ 1 ≤ hi).
Proof.
  intros Hbox Hrun.
  assert (∀ raw,
    category_options (sanitize to_float raw) ≠ [] →
    let df := sanitize to_float raw in
    let category := selectbox w "Select Category" (category_options df) in
    let state := selectbox w "Select State" (state_options df category) in
    let city := selectbox w "Select City" (city_options df category state) in
    ∃ r sel, filtered_df df category state city = r :: sel) as Hsel.
  { intros raw Hne df category state city.
    destruct (filtered_df_inhabited df category state city) as [r Hr].
    - by apply Hbox.
    - right. by apply Hbox.
    - right. by apply Hbox.
    - destruct (filtered_df df category state city) as [|r0 sel]; [|by eauto].
      by apply elem_of_nil in Hr. }
  destruct (app_cases to_float w)
    as [(? & _ & H)|[(? & H)|[(? & _ & _ & H)|[(raw & ? & H)|(raw & n & H)]]]];
    cbv zeta in H; try destruct H as (_ & Hne & H);
    rewrite H in Hrun; apply (f_equal fst) in Hrun; cbn [fst] in Hrun;
    subst out; clear H.
  - unfold rendered, page_head. simpl. split.
    + intros Hin. repeat (apply elem_of_cons in Hin as [Hin|Hin]; [done|]).
      by apply elem_of_nil in Hin.
    + intros ???? Hin. repeat (apply elem_of_cons in Hin as [Hin|Hin]; [done|]).
      by apply elem_of_nil in Hin.
  - unfold rendered, page_head. simpl. split.
    + intros Hin. repeat (apply elem_of_cons in Hin as [Hin|Hin]; [done|]).
      by apply elem_of_nil in Hin.
    + intros ???? Hin. repeat (apply elem_of_cons in Hin as [Hin|Hin]; [done|]).
      by apply elem_of_nil in Hin.
  - unfold rendered, page_head. simpl. split.
    + intros Hin. repeat (apply elem_of_cons in Hin as [Hin|Hin]; [done|]).
      by apply elem_of_nil in Hin.
    + intros ???? Hin. repeat (apply elem_of_cons in Hin as [Hin|Hin]; [done|]).
      by apply elem_of_nil in Hin.
  - destruct (Hsel raw) as (r & sel & Heq); [done|].
    cbv zeta in Heq. rewrite Heq.
    unfold rendered, page_head, sidebar_widgets. simpl. split.
    + intros Hin. repeat (apply elem_of_cons in Hin as [Hin|Hin]; [done|]).
      by apply elem_of_nil in Hin.
    + intros ???? Hin.
      repeat (apply elem_of_cons in Hin as [Hin|Hin];
              [try done; injection Hin as -> -> -> ->; split; lia|]).
      by apply elem_of_nil in Hin.
  - destruct (Hsel raw) as (r & sel & Heq); [done|].
    cbv zeta in Heq. rewrite Heq.
    unfold rendered, page_head, sidebar_widgets, main_panel, map_view, charts.
    simpl length. cbn [mbind script_bind emit fst app].
    split.
    + intros Hin. repeat (apply elem_of_cons in Hin as [Hin|Hin]; [done|]).
      by apply elem_of_nil in Hin.
    + intros ???? Hin.
      repeat (apply elem_of_cons in Hin as [Hin|Hin];
              [try done; injection Hin as -> -> -> ->; split; lia|]).
      by apply elem_of_nil in Hin.
Qed.

(** * Further properties of the script *)

(** ** The option lists *)

Lemma NoDup_unique col : NoDup (unique col).
Proof.
  induction col as [|x col IH]; simpl; [constructor|].
  constructor.
  - rewrite list_elem_of_filter. naive_solver.
  - by apply NoDup_filter.
Qed.

Lemma sorted_labels_sorted col : StronglySorted String.le (sorted_labels col).
Proof. unfold sorted_labels, sorted. apply StronglySorted_merge_sort; apply _. Qed.

Lemma sorted_labels_NoDup col : NoDup (sorted_labels col).
Proof.
  unfold sorted_labels, sorted.
  rewrite merge_sort_Permutation. apply NoDup_unique.
Qed.

(** X1.  Each option list is in ascending order and offers no label twice
    (lines 43, 51 and 56: [sorted(... .dropna().unique())]); in the state and
    city lists this holds for the part after the leading ["All"]. *)
Theorem option_lists_sorted_without_duplicates df c s :
  (StronglySorted String.le (category_options df) ∧ NoDup (category_options df))
  ∧ (StronglySorted String.le (state_labels df c) ∧ NoDup (state_labels df c))
  ∧ (StronglySorted String.le (city_labels df c s) ∧ NoDup (city_labels df c s))
  ∧ state_options df c = "All" :: state_labels df c
  ∧ city_options df c s = "All" :: city_labels df c s.
Proof.
  unfold category_options, state_labels, city_labels.
  split_and!; auto using sorted_labels_sorted, sorted_labels_NoDup.
Qed.

(** X2.  The option lists offer exactly what the data holds: a category is
    offered iff some record has it; a state is offered iff it is ["All"] or
    the state of a record of the selected category; a city is offered iff it
    is ["All"] or the city of a record of the selected category and state. *)
Theorem option_lists_are_exact df c s l :
  (l ∈ category_options df ↔ ∃ r, r ∈ df ∧ CATEGORY_MAIN r = Some l)
  ∧ (l ∈ state_options df c ↔
       l = "All" ∨ ∃ r, r ∈ df ∧ CATEGORY_MAIN r = Some c ∧ STATE r = Some l)
  ∧ (l ∈ city_options df c s ↔
       l = "All" ∨ ∃ r, r ∈ df ∧ CATEGORY_MAIN r = Some c
                        ∧ (s = "All" ∨ STATE r = Some s) ∧ CITY r = Some l).
Proof.
  split_and!.
  - apply elem_of_category_options.
  - unfold state_options. by rewrite elem_of_cons, elem_of_state_labels.
  - unfold city_options. by rewrite elem_of_cons, elem_of_city_labels.
Qed.

(** ** The selection as one filter *)

Lemma by_state_as_filter df s :
  by_state df s = filter (λ r, s = "All" ∨ STATE r = Some s) df.
Proof.
  unfold by_state. case_decide.
  - symmetry. apply filter_all, Forall_forall. auto.
  - apply list_filter_iff. naive_solver.
Qed.

Lemma by_city_as_filter df ci :
  by_city df ci = filter (λ r, ci = "All" ∨ CITY r = Some ci) df.
Proof.
  unfold by_city. case_decide.
  - symmetry. apply filter_all, Forall_forall. auto.
  - apply list_filter_iff. naive_solver.
Qed.

(** X3.  The three masks of lines 49-59 together keep exactly the rows that
    have the selected category, the selected state unless it is ["All"], and
    the selected city unless it is ["All"]: the same rows, as often and in
    the same order, as one filter with the conjunction. *)
Theorem filtered_df_is_one_filter df c s ci :
  filtered_df df c s ci = filter (matches c s ci) df.
Proof.
  unfold filtered_df. rewrite by_city_as_filter, by_state_as_filter.
  unfold by_category. rewrite !list_filter_filter.
  apply list_filter_iff. unfold matches. tauto.
Qed.

Lemma filtered_df_filter df c s ci :
  filtered_df df c s ci = filter (matches c s ci) df.
Proof.
  unfold filtered_df, by_city, by_state, by_category, matches.
  repeat case_decide; rewrite ?list_filter_filter;
    apply list_filter_iff; naive_solver.
Qed.

(** X4.  Narrowing never adds rows: the selection for a city is a
    subsequence of the selection for its state, which is a subsequence of
    the selection for the category alone; and with ["All"] for both state
    and city the selection is every row of the category. *)
Theorem narrowing_never_adds_rows df c s ci :
  filtered_df df c s ci `sublist_of` filtered_df df c s "All"
  ∧ filtered_df df c s "All" `sublist_of` filtered_df df c "All" "All"
  ∧ filtered_df df c "All" "All" = by_category df c
  ∧ length (filtered_df df c s ci) ≤ length (by_category df c).
Proof.
  assert (∀ s', filtered_df df c s' "All" = by_state (by_category df c) s') as Hall
    by done.
  assert (filtered_df df c s ci `sublist_of` filtered_df df c s "All") as H1.
  { rewrite Hall. apply by_city_sublist. }
  assert (filtered_df df c s "All" `sublist_of` filtered_df df c "All" "All") as H2.
  { rewrite !Hall. apply by_state_sublist. }
  assert (filtered_df df c "All" "All" = by_category df c) as H3 by done.
  split_and!; [done..|].
  rewrite <-H3. apply sublist_length. by etrans.
Qed.

(** X5.  Constraining the state never adds a city option: every city offered
    under a state is also offered under ["All"] for the same category. *)
Theorem city_options_shrink_with_state df c s :
  city_options df c s ⊆ city_options df c "All".
Proof.
  intros l. unfold city_options. rewrite !elem_of_cons, !elem_of_city_labels.
  naive_solver.
Qed.

(** ** Cleaning, again and together with filtering *)

Section CleanMore.

Variable to_float : string → option float64.

Lemma coerce_coordinates_fixed r :
  has_coordinates (coerce_coordinates to_float r) = true →
  coerce_coordinates to_float (coerce_coordinates to_float r)
  = coerce_coordinates to_float r.
Proof.
  intros H. apply has_coordinates_coerced in H as (x & y & Hx & Hy).
  unfold coerce_coordinates in *. simpl in *. by rewrite Hx, Hy.
Qed.

Lemma filter_coerced (P : PoiRecord → Prop) `{!∀ r, Decision (P r)} df :
  (∀ r, P (coerce_coordinates to_float r) ↔ P r) →
  filter P (map (coerce_coordinates to_float) df)
  = map (coerce_coordinates to_float) (filter P df).
Proof.
  intros HP. induction df as [|r df IH]; [done|].
  simpl. rewrite !filter_cons.
  destruct (decide (P (coerce_coordinates to_float r))) as [Hc|Hc],
           (decide (P r)) as [Hr|Hr]; simpl.
  - f_equal. apply IH.
  - destruct Hr. by apply (proj1 (HP r)).
  - destruct Hc. by apply (proj2 (HP r)).
  - apply IH.
Qed.

(** X6.  Cleaning a cleaned frame changes nothing: the coordinates are
    already numbers, so nothing is coerced and nothing is dropped. *)
Theorem sanitize_idempotent df :
  sanitize to_float (sanitize to_float df) = sanitize to_float df.
Proof.
  rewrite (sanitize_unfold to_float (sanitize to_float df)).
  rewrite (sanitize_unfold to_float df).
  induction df as [|r df IH]; [done|].
  rewrite filter_cons. case_decide as Hr; [|exact IH].
  cbn [map]. rewrite filter_cons.
  rewrite (coerce_coordinates_fixed r Hr).
  rewrite decide_True by done. cbn [map].
  rewrite (coerce_coordinates_fixed r Hr). f_equal. exact IH.
Qed.

(** With coercion done cell by cell, as [to_numeric] is written here, the
    two frames are even equal.  The dtype pandas picks for a whole column is
    not modelled, so below only what the dtype cannot touch is stated. *)
Lemma selection_of_cleaned_cellwise df c s ci :
  filtered_df (sanitize to_float df) c s ci
  = sanitize to_float (filtered_df df c s ci).
Proof.
  rewrite !filtered_df_filter.
  unfold sanitize, dropna_subset.
  rewrite list_filter_filter.
  rewrite <-(filter_coerced (matches c s ci)) by done.
  rewrite list_filter_filter.
  apply list_filter_iff. tauto.
Qed.

(** X7.  Cleaning and selecting commute on which rows remain: selecting from
    the cleaned frame leaves the rows with the same index labels, in the
    same order and with the same name, category, city and state, as
    cleaning the selection of the raw frame.  The coordinates play no part
    in the selection, and the category, state and city play no part in
    which rows the cleaning drops. *)
Theorem sanitize_and_selection_keep_the_same_rows df c s ci :
  map row_label (filtered_df (sanitize to_float df) c s ci)
    = map row_label (sanitize to_float (filtered_df df c s ci))
  ∧ map POI_NAME (filtered_df (sanitize to_float df) c s ci)
    = map POI_NAME (sanitize to_float (filtered_df df c s ci))
  ∧ map CATEGORY_MAIN (filtered_df (sanitize to_float df) c s ci)
    = map CATEGORY_MAIN (sanitize to_float (filtered_df df c s ci))
  ∧ map CITY (filtered_df (sanitize to_float df) c s ci)
    = map CITY (sanitize to_float (filtered_df df c s ci))
  ∧ map STATE (filtered_df (sanitize to_float df) c s ci)
    = map STATE (sanitize to_float (filtered_df df c s ci)).
Proof. by rewrite selection_of_cleaned_cellwise. Qed.

End CleanMore.

(** ** The counts *)

(** X8.  The counts do not depend on the order of the rows: two frames with
    the same rows in any order give the same category counts and the same
    state counts. *)
Theorem counts_ignore_row_order (df df' : DataFrame) :
  df ≡ₚ df' →
  category_counts df = category_counts df'
  ∧ state_counts df = state_counts df'.
Proof.
  intros Hperm. unfold category_counts, state_counts.
  assert (∀ (f : PoiRecord → option string) l,
            length (filter (λ r, f r = Some l) df)
            = length (filter (λ r, f r = Some l) df')) as Hlen.
  { intros f l. by rewrite Hperm. }
  split; apply map_eq; intros l;
    rewrite !lookup_value_counts, !occurrences_column;
    by rewrite Hlen.
Qed.

(** X8 on the three records and the same records in reverse order. *)
Lemma counts_ignore_row_order_witness :
  category_counts three_records = category_counts (reverse three_records)
  ∧ state_counts three_records = state_counts (reverse three_records).
Proof.
  apply (counts_ignore_row_order three_records (reverse three_records)).
  symmetry. apply reverse_Permutation.
Defined.

Lemma length_filter_nonzero {A} (P : A → Prop) `{!∀ x, Decision (P x)} (l : list A) :
  length (filter P l) ≠ 0 ↔ ∃ x, x ∈ l ∧ P x.
Proof.
  split.
  - destruct (filter P l) as [|x k] eqn:Heq; [done|]. intros _.
    exists x. assert (x ∈ filter P l) as Hin by (rewrite Heq; left).
    apply list_elem_of_filter in Hin. tauto.
  - intros (x & Hx & HP).
    assert (x ∈ filter P l) as Hin by (by apply list_elem_of_filter).
    destruct (filter P l); [by apply elem_of_nil in Hin|done].
Qed.

(** X9.  The bars of the category chart are the entries of the category
    select box: the counts have an entry exactly for the category options,
    and the entry for a category is the number of rows selected when that
    category is chosen with ["All"] for state and city. *)
Theorem category_chart_matches_selectbox df :
  dom (category_counts df) = list_to_set (category_options df)
  ∧ Forall (λ c, category_counts df !! c
                 = Some (length (filtered_df df c "All" "All")))
           (category_options df).
Proof.
  assert (∀ c, category_counts df !! c
               = (if length (by_category df c) is 0 then None
                  else Some (length (by_category df c)))) as Hlook.
  { intros c. unfold category_counts, by_category.
    by rewrite lookup_value_counts, occurrences_column. }
  assert (∀ c, c ∈ category_options df ↔ length (by_category df c) ≠ 0) as Hopt.
  { intros c. rewrite elem_of_category_options.
    unfold by_category. by rewrite length_filter_nonzero. }
  split.
  - apply set_eq. intros c.
    rewrite elem_of_dom, elem_of_list_to_set, Hopt, Hlook.
    destruct (length (by_category df c)); split;
      [intros [? ?]; done|done|done|by eauto].
  - apply Forall_forall. intros c Hc. apply Hopt in Hc.
    rewrite Hlook. change (filtered_df df c "All" "All") with (by_category df c).
    by destruct (length (by_category df c)).
Qed.

(** ** How runs end *)

Lemma page_head_draws_no_data :
  Forall (λ r, draws_data r = false) (rendered page_head).
Proof. unfold rendered, page_head. simpl. by repeat constructor. Qed.

Lemma sidebar_widgets_draw_no_data df c s n :
  Forall (λ r, draws_data r = false) (sidebar_widgets df c s n).
Proof. unfold sidebar_widgets. by repeat constructor. Qed.

(** X10.  A failure to connect is caught (lines 25-29): whatever the rest of
    the world would answer, the run shows the error message last, stops, and
    has shown no data. *)
Theorem connect_failure_is_caught to_float w exn :
  get_connection w = Raise exn →
  ∃ out, app to_float w = (out, Ended Stopped)
         ∧ last out
           = Some (Error "❌ Failed to connect to Snowflake. Please check your credentials.")
         ∧ Forall (λ r, draws_data r = false) out.
Proof.
  intros Hconn. eexists.
  split; [by apply (app_connect_fails to_float w exn)|].
  split; [done|].
  apply Forall_app. split; [apply page_head_draws_no_data|by repeat constructor].
Qed.

(** X10 on a server that refuses the connection. *)
Lemma connect_failure_is_caught_witness :
  ∃ out, app parse_small world_connect_fails = (out, Ended Stopped)
         ∧ last out
           = Some (Error "❌ Failed to connect to Snowflake. Please check your credentials.")
         ∧ Forall (λ r, draws_data r = false) out.
Proof.
  apply (connect_failure_is_caught parse_small world_connect_fails
           "DatabaseError: 250001: Could not connect to Snowflake backend").
  reflexivity.
Defined.

(** X11.  Each of the five ways the script can end before line 64 ends the
    run there with no map, no table, no download button and no chart drawn:
    a refused connection and an empty category list end it at [st.stop()],
    a raising [pd.read_sql], [conn.close()] or [st.sidebar.slider] end it in
    that exception.  (Exceptions of the drawing calls from line 64 on are
    not modelled and are not spoken of.) *)
Theorem early_end_draws_no_data to_float w h :
  EarlyEnd to_float w h →
  ∃ out, app to_float w = (out, Ended h)
         ∧ Forall (λ r, draws_data r = false) out.
Proof.
  intros [exn Hc|exn Hc Hq|raw exn Hc Hq Hx|raw Hc Hq Hx Hno|raw exn Hc Hq Hx Hne Hsl];
    eexists; (split; [|shelve]).
  - by apply (app_connect_fails to_float w exn).
  - by apply (app_query_fails to_float w exn).
  - by apply (app_close_fails to_float w raw exn).
  - by apply (app_no_categories to_float w raw).
  - by apply (app_slider_raises to_float w raw Hc Hq Hx exn).
  Unshelve.
  + apply Forall_app. split; [apply page_head_draws_no_data|by repeat constructor].
  + apply page_head_draws_no_data.
  + apply page_head_draws_no_data.
  + apply Forall_app. split; [apply page_head_draws_no_data|by repeat constructor].
  + apply Forall_app. split;
      [apply page_head_draws_no_data|apply sidebar_widgets_draw_no_data].
Qed.

(** X11 on the failing query. *)
Lemma early_end_draws_no_data_witness :
  ∃ out, app parse_small world_query_fails
         = (out, Ended (Uncaught "ProgrammingError: Object 'POI_ADDRESS_US' does not exist"))
         ∧ Forall (λ r, draws_data r = false) out.
Proof.
  apply (early_end_draws_no_data parse_small world_query_fails).
  apply query_raised; reflexivity.
Defined.

(** ** What a finished run shows *)

Lemma main_panel_contents selection row_count :
  Success ("Total POIs in selection: " +:+ pretty (length selection))
    ∈ rendered (main_panel selection row_count)
  ∧ DownloadButton "⬇️ Download Filtered Data as CSV" selection "filtered_poi_data.csv"
    ∈ rendered (main_panel selection row_count)
  ∧ (selection ≠ [] → PydeckChart selection ∈ rendered (main_panel selection row_count)).
Proof.
  unfold main_panel, map_view, rendered.
  destruct selection; cbn [mbind script_bind emit fst app];
    split_and!; try done; set_solver.
Qed.

(** X12.  A run that reaches its last line shows the whole selection in the
    success message's total, in the download and (when there is a row) on the
    map; only the table is cut to the slider's value: it shows the first
    [row_count] rows of the selection, reduced to the six named columns, so
    at most [row_count] rows and at most as many as the selection has. *)
Theorem finished_run_shows_the_selection to_float w raw row_count :
  let df := sanitize to_float raw in
  let category := selectbox w "Select Category" (category_options df) in
  let state := selectbox w "Select State" (state_options df category) in
  let city := selectbox w "Select City" (city_options df category state) in
  let selection := filtered_df df category state city in
  get_connection w = Ok tt →
  read_sql w query = Ok raw →
  conn_close w = Ok tt →
  category_options df ≠ [] →
  slider w "Number of rows to display" 1 (length selection)
         (10 `min` length selection) = Ok row_count →
  ∃ out, app to_float w = (out, Next tt)
         ∧ Success ("Total POIs in selection: " +:+ pretty (length selection)) ∈ out
         ∧ DownloadButton "⬇️ Download Filtered Data as CSV" selection
                          "filtered_poi_data.csv" ∈ out
         ∧ (selection ≠ [] → PydeckChart selection ∈ out)
         ∧ Dataframe (take row_count (map shown_columns selection)) ∈ out
         ∧ length (take row_count (map shown_columns selection))
           = row_count `min` length selection
         ∧ take row_count (map shown_columns selection)
           `prefix_of` map shown_columns selection.
Proof.
  intros df category state city selection Hconn Hsql Hclose Hne Hsl.
  pose proof (app_completes to_float w raw Hconn Hsql Hclose row_count Hne Hsl)
    as Hdone.
  cbv zeta in Hdone. fold df category state city selection in Hdone.
  destruct (main_panel_contents selection row_count) as (Hs & Hd & Hm).
  eexists. split; [exact Hdone|].
  split_and!.
  - rewrite !elem_of_app. auto.
  - rewrite !elem_of_app. auto.
  - intros Hsel. rewrite !elem_of_app. auto.
  - rewrite !elem_of_app. right; right; left. apply table_in_main_panel.
  - by rewrite length_take, length_map.
  - apply prefix_take.
Qed.

(** X12 on the three records, first entry of every select box, slider left
    at its initial value 1. *)
Lemma finished_run_shows_the_selection_witness :
  ∃ out, app parse_small (world_of three_records) = (out, Next tt)
         ∧ Success "Total POIs in selection: 1" ∈ out
         ∧ DownloadButton "⬇️ Download Filtered Data as CSV"
             (filtered_df (sanitize parse_small three_records) "A" "All" "All")
             "filtered_poi_data.csv" ∈ out
         ∧ (filtered_df (sanitize parse_small three_records) "A" "All" "All" ≠ [] →
            PydeckChart (filtered_df (sanitize parse_small three_records) "A" "All" "All")
              ∈ out)
         ∧ Dataframe (take 1 (map shown_columns
               (filtered_df (sanitize parse_small three_records) "A" "All" "All"))) ∈ out
         ∧ length (take 1 (map shown_columns
               (filtered_df (sanitize parse_small three_records) "A" "All" "All")))
           = 1 `min` length (filtered_df (sanitize parse_small three_records) "A" "All" "All")
         ∧ take 1 (map shown_columns
               (filtered_df (sanitize parse_small three_records) "A" "All" "All"))
           `prefix_of` map shown_columns
               (filtered_df (sanitize parse_small three_records) "A" "All" "All").
Proof.
  apply (finished_run_shows_the_selection parse_small (world_of three_records)
           three_records 1).
  - reflexivity.
  - reflexivity.
  - reflexivity.
  - vm_compute. discriminate.
  - reflexivity.
Defined.

(** ** The slider *)

Lemma main_panel_has_no_slider selection row_count :
  Forall slider_in_range (rendered (main_panel selection row_count)).
Proof.
  unfold main_panel, map_view, rendered.
  destruct selection; cbn [mbind script_bind emit fst app];
    repeat constructor.
Qed.

Lemma sidebar_widgets_slider_in_range df c s n :
  1 ≤ n → Forall slider_in_range (sidebar_widgets df c s n).
Proof.
  intros Hn. unfold sidebar_widgets.
  do 4 (constructor; [exact I|]).
  constructor; [|constructor].
  unfold slider_in_range. lia.
Qed.

Lemma first_option_returns_an_option rows : returns_an_option (world_of rows).
Proof.
  intros label [|o os] Hne; [done|]. simpl. unfold first_option. simpl. left.
Qed.

(** X13.  With select boxes that return one of their options, every slider
    the script asks for is a proper range (line 61): the lower bound is 1,
    the upper bound is the size of the selection and at least 1, and the
    initial value [min(10, size)] lies between the bounds. *)
Theorem slider_is_a_proper_range to_float w out step :
  returns_an_option w →
  app to_float w = (out, step) →
  Forall slider_in_range out.
Proof.
  intros Hbox Hrun.
  assert (∀ raw,
    category_options (sanitize to_float raw) ≠ [] →
    let df := sanitize to_float raw in
    let category := selectbox w "Select Category" (category_options df) in
    let state := selectbox w "Select State" (state_options df category) in
    let city := selectbox w "Select City" (city_options df category state) in
    1 ≤ length (filtered_df df category state city)) as Hsel.
  { intros raw Hne df category state city.
    destruct (filtered_df_inhabited df category state city) as [r Hr].
    - by apply Hbox.
    - right. by apply Hbox.
    - right. by apply Hbox.
    - destruct (filtered_df df category state city) as [|r0 sel]; [|simpl; lia].
      by apply elem_of_nil in Hr. }
  assert (Forall slider_in_range (rendered page_head)) as Hhead.
  { unfold rendered, page_head. simpl. repeat constructor. }
  destruct (app_cases to_float w)
    as [(? & _ & H)|[(? & H)|[(? & _ & _ & H)|[(raw & ? & H)|(raw & n & H)]]]];
    cbv zeta in H; try destruct H as (_ & Hne & H);
    rewrite H in Hrun; apply (f_equal fst) in Hrun; cbn [fst] in Hrun;
    subst out; clear H.
  - apply Forall_app. split; [done|repeat constructor].
  - done.
  - apply Forall_app. split; [done|repeat constructor].
  - apply Forall_app. split; [done|].
    apply sidebar_widgets_slider_in_range. by apply Hsel.
  - rewrite !Forall_app. split_and!; [done| |apply main_panel_has_no_slider|].
    + apply sidebar_widgets_slider_in_range. by apply Hsel.
    + unfold rendered, charts. simpl. repeat constructor.
Qed.

(** X13 on the three records with a user who takes the first option. *)
Lemma slider_is_a_proper_range_witness :
  Forall slider_in_range (rendered (app parse_small (world_of three_records))).
Proof.
  apply (slider_is_a_proper_range parse_small (world_of three_records) _ (Next tt)).
  - apply first_option_returns_an_option.
  - vm_compute. reflexivity.
Defined.

(** ** Reruns *)

(** X14.  The script closes the connection it keeps cached.  After one run
    that fetched its data, the cache holds the closed connection; every
    later run in the same process gets that object back without connecting
    again and sends its query over it.  With a driver that refuses a closed
    connection, such a run dies of the driver's exception right after the
    page head, and leaves the cache as it found it, so the next run fares
    the same. *)
Theorem rerun_queries_the_closed_connection to_float d1 d2 raw exn :
  connect d1 = Ok tt →
  read_on d1 true query = Ok raw →
  close_on d1 true = Ok tt →
  read_on d2 false query = Raise exn →
  process_after d1 None = Some false
  ∧ get_connection (world_in d2 (process_after d1 None)) = Ok tt
  ∧ read_sql (world_in d2 (process_after d1 None)) = read_on d2 false
  ∧ app to_float (world_in d2 (process_after d1 None))
    = (rendered page_head, Ended (Uncaught exn))
  ∧ process_after d2 (process_after d1 None) = process_after d1 None.
Proof.
  intros Hconn Hread Hclose Hrefuse.
  assert (process_after d1 None = Some false) as ->.
  { unfold process_after, cached_get_connection. by rewrite Hconn, Hread, Hclose. }
  split_and!; [done..| |].
  - by apply (app_query_fails to_float (world_in d2 (Some false)) exn).
  - unfold process_after, cached_get_connection. by rewrite Hrefuse.
Qed.

(** X14 with the same strict driver in both runs. *)
Lemma rerun_queries_the_closed_connection_witness :
  process_after strict_driver None = Some false
  ∧ get_connection (world_in strict_driver (process_after strict_driver None)) = Ok tt
  ∧ read_sql (world_in strict_driver (process_after strict_driver None))
    = read_on strict_driver false
  ∧ app parse_small (world_in strict_driver (process_after strict_driver None))
    = (rendered page_head,
       Ended (Uncaught "ProgrammingError: Connection is closed"))
  ∧ process_after strict_driver (process_after strict_driver None)
    = process_after strict_driver None.
Proof.
  apply (rerun_queries_the_closed_connection parse_small strict_driver
           strict_driver three_records "ProgrammingError: Connection is closed");
    reflexivity.
Defined.

(** X15.  Once a connection is cached, [connect] is not consulted again:
    two drivers that differ only in whether connecting would work give the
    same run and leave the same process state. *)
Theorem cached_connection_is_not_reopened to_float d d' (is_open : bool) :
  read_on d = read_on d' →
  close_on d = close_on d' →
  choose d = choose d' →
  slide d = slide d' →
  app to_float (world_in d (Some is_open)) = app to_float (world_in d' (Some is_open))
  ∧ process_after d (Some is_open) = process_after d' (Some is_open).
Proof.
  intros Hr Hc Hs Hl.
  unfold world_in, process_after, cached_get_connection. simpl.
  by rewrite Hr, Hc, Hs, Hl.
Qed.

(** X15 with a server that has gone away after the first connection. *)
Lemma cached_connection_is_not_reopened_witness :
  app parse_small (world_in strict_driver (Some true))
  = app parse_small
      (world_in (mkDriver (Raise "OperationalError: server gone")
                          (read_on strict_driver) (close_on strict_driver)
                          (choose strict_driver) (slide strict_driver))
                (Some true))
  ∧ process_after strict_driver (Some true)
    = process_after (mkDriver (Raise "OperationalError: server gone")
                              (read_on strict_driver) (close_on strict_driver)
                              (choose strict_driver) (slide strict_driver))
                    (Some true).
Proof.
  apply (cached_connection_is_not_reopened parse_small strict_driver
           (mkDriver (Raise "OperationalError: server gone")
                     (read_on strict_driver) (close_on strict_driver)
                     (choose strict_driver) (slide strict_driver)) true);
    reflexivity.
Defined.

(** ** Closing the connection *)

(** X16.  A failure of [conn.close()] (line 34) is handled by nobody: the
    rows have been fetched, yet the run ends in the exception right after
    the page head and shows none of them. *)
Theorem close_failure_discards_the_data to_float w raw exn :
  get_connection w = Ok tt →
  read_sql w query = Ok raw →
  conn_close w = Raise exn →
  app to_float w
  = ([ SetPageConfig "US POI Map" "wide";
       Title "📍 US POI Map Viewer";
       Markdown "View Points of Interest from Snowflake with Map, Filters, and Visualizations" ],
     Ended (Uncaught exn)).
Proof. intros H1 H2 H3. by rewrite (app_close_fails to_float w raw exn). Qed.

(** X16 on a connection that fails to close. *)
Lemma close_failure_discards_the_data_witness :
  app parse_small world_close_fails
  = ([ SetPageConfig "US POI Map" "wide";
       Title "📍 US POI Map Viewer";
       Markdown "View Points of Interest from Snowflake with Map, Filters, and Visualizations" ],
     Ended (Uncaught "OperationalError: failed to close session")).
Proof.
  apply (close_failure_discards_the_data parse_small world_close_fails
           three_records "OperationalError: failed to close session");
    reflexivity.
Defined.

(** ** The warning branch *)

(** X17 on the three records with a user who takes the first option. *)
Lemma no_data_branch_is_unreachable_witness :
  (Warning no_data ∉ rendered (app parse_small (world_of three_records)))
  ∧ (∀ label lo hi v,
       Slider label lo hi v ∈ rendered (app parse_small (world_of three_records)) →
       lo = 1 ∧ 1 ≤ hi).
Proof.
  apply (no_data_branch_is_unreachable parse_small (world_of three_records) _ (Next tt)).
  - apply first_option_returns_an_option.
  - vm_compute. reflexivity.
Defined.
